(** * Visplot documentation configuration: [docs/conf.py] and [readthedocs/conf.py]

    Both files are Python modules made of top-level assignments only.  A
    module is embedded as the list of its assignment statements, in source
    order; executing the module threads the module namespace (a finite map
    from names to values) through the statements. *)

From Stdlib Require Import ZArith List.
From stdpp Require Import gmap strings list fin_maps.

Set Warnings "-register-all,-clear-no-such-hyp".

Open Scope Z_scope.
Open Scope string_scope.

(** ** Data model *)

(** Python objects that occur in the two modules: [str], [int], [bool] and
    [list]. *)
Inductive value : Type :=
| VStr (s : string)
| VInt (z : Z)
| VBool (b : bool)
| VList (vs : list value).

(** Right-hand sides.  The two modules only use string, integer and boolean
    literals and list displays; a name reference is kept as the one
    expression form whose evaluation can raise. *)
Inductive expr : Type :=
| EStr (s : string)
| EInt (z : Z)
| EBool (b : bool)
| EList (es : list expr)
| EName (x : string).

(** A top-level statement [target = rhs]. *)
Inductive stmt : Type :=
| Assign (target : string) (rhs : expr).

(** The module namespace. *)
Abbreviation env := (gmap string value).

(** Exceptions raised while a module body runs. *)
Inductive exn : Type :=
| NameError (x : string).

Inductive result (A : Type) : Type :=
| Ok (a : A)
| Raise (e : exn).
Arguments Ok {A} a.
Arguments Raise {A} e.

#[global] Instance result_bind : MBind result :=
  fun A B (k : A -> result B) (r : result A) =>
    match r with
    | Ok a => k a
    | Raise e => Raise e
    end.

(** ** Evaluation *)

(** Elements of a list display are evaluated left to right; the first
    exception aborts the display. *)
Fixpoint eval_expr (g : env) (e : expr) : result value :=
  match e with
  | EStr s => Ok (VStr s)
  | EInt z => Ok (VInt z)
  | EBool b => Ok (VBool b)
  | EList es =>
      vs ← (fix eval_items (l : list expr) : result (list value) :=
              match l with
              | [] => Ok []
              | e' :: l' =>
                  v ← eval_expr g e';
                  vs ← eval_items l';
                  Ok (v :: vs)
              end) es;
      Ok (VList vs)
  | EName x =>
      match g !! x with
      | Some v => Ok v
      | None => Raise (NameError x)
      end
  end.

Definition eval_items (g : env) : list expr -> result (list value) :=
  fix go (l : list expr) : result (list value) :=
    match l with
    | [] => Ok []
    | e' :: l' =>
        v ← eval_expr g e';
        vs ← go l';
        Ok (v :: vs)
    end.

(** [target = rhs] evaluates [rhs] in the current namespace, then binds
    (or rebinds) [target]. *)
Definition exec_stmt (g : env) (s : stmt) : result env :=
  match s with
  | Assign x e => v ← eval_expr g e; Ok (<[x := v]> g)
  end.

(** A module body runs its statements in order and stops at the first
    exception. *)
Fixpoint exec (p : list stmt) (g : env) : result env :=
  match p with
  | [] => Ok g
  | s :: p' => g' ← exec_stmt g s; exec p' g'
  end.

(** Loading a module runs its body in a fresh namespace. *)
Definition run (p : list stmt) : result env := exec p ∅.

(** ** The two modules *)

(** [docs/conf.py] and [readthedocs/conf.py], lines 16-25. *)
Definition extensions_display : expr :=
  EList [ EStr "sphinx.ext.autosectionlabel";
          EStr "sphinx.ext.autodoc";
          EStr "sphinx.ext.autosummary";
          EStr "sphinx.ext.doctest";
          EStr "sphinx.ext.todo";
          EStr "sphinx.ext.mathjax";
          EStr "sphinx.ext.ifconfig";
          EStr "sphinx.ext.viewcode" ].

(** [docs/conf.py].  Line 47, [# html_static_path = ['./pencil/static']],
    is a comment and contributes no statement. *)
Definition docs_conf : list stmt :=
  [ Assign "project" (EStr "Visplot");                                 (* l.9  *)
    Assign "copyright" (EStr "2026, irl, ega");                        (* l.10 *)
    Assign "author" (EStr "irl, ega");                                 (* l.11 *)
    Assign "extensions" extensions_display;                            (* l.16 *)
    Assign "templates_path" (EList [EStr "_templates"]);               (* l.27 *)
    Assign "exclude_patterns"
      (EList [EStr "_build"; EStr "Thumbs.db"; EStr ".DS_Store"]);     (* l.28 *)
    Assign "autosectionlabel_prefix_document" (EBool true);            (* l.32 *)
    Assign "autosectionlabel_maxdepth" (EInt 4);                       (* l.33 *)
    Assign "html_theme" (EStr "sphinx_rtd_theme");                     (* l.39 *)
    Assign "html_logo" (EStr "figs/visplot-icon.png");                 (* l.40 *)
    Assign "html_title" (EStr "Visplot");                              (* l.41 *)
    Assign "html_short_title" (EStr "Visplot");                        (* l.42 *)
    Assign "html_static_path" (EList [EStr "_static"]);                (* l.48 *)
    Assign "html_css_files" (EList [EStr "visplot.css"]) ].            (* l.49 *)

(** [readthedocs/conf.py]. *)
Definition readthedocs_conf : list stmt :=
  [ Assign "project" (EStr "Visplot");                                 (* l.9  *)
    Assign "copyright" (EStr "2026, irl, ega");                        (* l.10 *)
    Assign "author" (EStr "irl, ega");                                 (* l.11 *)
    Assign "extensions" extensions_display;                            (* l.16 *)
    Assign "templates_path" (EList [EStr "_templates"]);               (* l.27 *)
    Assign "exclude_patterns"
      (EList [EStr "_build"; EStr "Thumbs.db"; EStr ".DS_Store"]);     (* l.28 *)
    Assign "autosectionlabel_prefix_document" (EBool true);            (* l.32 *)
    Assign "autosectionlabel_maxdepth" (EInt 4);                       (* l.33 *)
    Assign "html_theme" (EStr "sphinx_rtd_theme");                     (* l.39 *)
    Assign "html_logo" (EStr "figs/visplot-icon.png");                 (* l.40 *)
    Assign "html_title" (EStr "Visplot");                              (* l.41 *)
    Assign "html_short_title" (EStr "Visplot");                        (* l.42 *)
    Assign "html_static_path" (EList [EStr "_static"]) ].              (* l.43 *)

(** ** Derived notions used by the statements below *)

(** The names a module body assigns, in source order, with repetitions. *)
Definition targets (p : list stmt) : list string :=
  map (fun s => match s with Assign x _ => x end) p.

(** A right-hand side built from literals and list displays only. *)
Fixpoint literal (e : expr) : bool :=
  match e with
  | EStr _ | EInt _ | EBool _ => true
  | EList es => forallb literal es
  | EName _ => false
  end.

Definition literal_stmt (s : stmt) : bool :=
  match s with Assign _ e => literal e end.

Definition literal_module (p : list stmt) : bool := forallb literal_stmt p.

(** Shapes of configuration values the documentation builder accepts. *)
Inductive ty : Type :=
| TStr
| TInt
| TBool
| TList (t : ty).

Fixpoint has_type (v : value) (t : ty) : bool :=
  match v, t with
  | VStr _, TStr => true
  | VInt _, TInt => true
  | VBool _, TBool => true
  | VList vs, TList t' => forallb (fun v' => has_type v' t') vs
  | _, _ => false
  end.

(** The builder's schema for the configuration names the two modules use. *)
Definition schema (k : string) : option ty :=
  if decide (k ∈ ["project"; "copyright"; "author"; "html_theme";
                  "html_logo"; "html_title"; "html_short_title"])
  then Some TStr
  else if decide (k ∈ ["extensions"; "templates_path"; "exclude_patterns";
                       "html_static_path"; "html_css_files"])
  then Some (TList TStr)
  else if decide (k = "autosectionlabel_prefix_document") then Some TBool
  else if decide (k = "autosectionlabel_maxdepth") then Some TInt
  else None.

Definition conforms (k : string) (v : value) : bool :=
  match schema k with
  | Some t => has_type v t
  | None => false
  end.

(** What a module, once loaded, holds under the name [k]. *)
Definition binding (p : list stmt) (k : string) : result (option value) :=
  run p ≫= fun g => Ok (g !! k).

(** The check the schema makes on one statement of a literal module. *)
Definition stmt_conforms (s : stmt) : bool :=
  match s with
  | Assign k e =>
      match eval_expr ∅ e with
      | Ok v => conforms k v
      | Raise _ => false
      end
  end.

(** The statement by which [docs/conf.py] goes beyond
    [readthedocs/conf.py] (line 49). *)
Definition css_stmt : stmt :=
  Assign "html_css_files" (EList [EStr "visplot.css"]).

(** Each name is assigned once, and what the namespace holds at the end is
    what the assignments put there. *)
Definition bound_once (p : list stmt) : Prop :=
  NoDup (targets p) /\
  exists g, run p = Ok g /\
    (forall k, k ∈ dom g <-> k ∈ targets p) /\
    (forall x e, Assign x e ∈ p ->
       exists v, eval_expr ∅ e = Ok v /\ g !! x = Some v).

(** Every name the loaded module binds is in the schema, with a value of
    the shape the schema gives it. *)
Definition schema_conformant (p : list stmt) : Prop :=
  exists g, run p = Ok g /\
    forall k v, g !! k = Some v -> conforms k v = true.

(** The body only binds literals, runs to completion from every initial
    namespace, and what it binds is the same in every run. *)
Definition deterministic (p : list stmt) : Prop :=
  literal_module p = true /\
  forall g1 g2, exists r1 r2,
    exec p g1 = Ok r1 /\ exec p g2 = Ok r2 /\
    (forall k, k ∈ targets p -> r1 !! k = r2 !! k) /\
    (g1 = g2 -> r1 = r2).

(** A well-formed extension list: [n] pairwise distinct strings, each
    starting with [sphinx.ext.]. *)
Definition well_formed_extensions (p : list stmt) (n : nat) : Prop :=
  exists l : list string,
    binding p "extensions" = Ok (Some (VList (map VStr l))) /\
    length l = n /\ NoDup l /\
    Forall (fun s => String.prefix "sphinx.ext." s = true) l.

(** Two namespaces give the same value to every name both of them bind. *)
Definition agree (g1 g2 : env) : Prop :=
  forall k v1 v2, g1 !! k = Some v1 -> g2 !! k = Some v2 -> v1 = v2.

(** The module loads: its body runs to completion and leaves a namespace
    that binds exactly the assigned names. *)
Definition loads (p : list stmt) : Prop :=
  exists g, run p = Ok g /\ dom g = list_to_set (targets p).

(** The two configuration modules of the repository. *)
Definition conf_modules : list (list stmt) := [docs_conf; readthedocs_conf].

(** The strings of a list whose elements are all [str] objects. *)
Fixpoint strings_of (vs : list value) : option (list string) :=
  match vs with
  | [] => Some []
  | VStr s :: vs' => cons s <$> strings_of vs'
  | _ :: _ => None
  end.

(** A setting that carries content: a string is not empty, and a list is a
    non-empty list of non-empty strings without repetition. *)
Definition well_formed_setting (v : value) : bool :=
  match v with
  | VStr s => bool_decide (s ≠ "")
  | VList vs =>
      match strings_of vs with
      | Some l => bool_decide (l ≠ [] /\ NoDup l /\ "" ∉ l)
      | None => false
      end
  | VInt _ | VBool _ => true
  end.

(** A check on bindings, made on the statement that creates the binding. *)
Definition stmt_satisfies (c : string -> value -> bool) (s : stmt) : bool :=
  match s with
  | Assign k e =>
      match eval_expr ∅ e with
      | Ok v => c k v
      | Raise _ => false
      end
  end.

(** ** The result monad *)

Lemma bind_Ok {A B : Type} (a : A) (k : A -> result B) :
  (Ok a ≫= k) = k a.
Proof. reflexivity. Qed.

Lemma bind_Raise {A B : Type} (e : exn) (k : A -> result B) :
  (Raise e ≫= k) = Raise e.
Proof. reflexivity. Qed.

Lemma bind_Ok_inv {A B : Type} (r : result A) (k : A -> result B) (b : B) :
  (r ≫= k) = Ok b -> exists a, r = Ok a /\ k a = Ok b.
Proof. destruct r as [a|e]; [eauto | discriminate]. Qed.

(** ** Induction over right-hand sides *)

Lemma expr_Forall_ind (P : expr -> Prop) :
  (forall s, P (EStr s)) ->
  (forall z, P (EInt z)) ->
  (forall b, P (EBool b)) ->
  (forall es, Forall P es -> P (EList es)) ->
  (forall x, P (EName x)) ->
  forall e, P e.
Proof.
  intros HS HI HB HL HN.
  fix IH 1.
  intros [s|z|b|es|x]; [apply HS | apply HI | apply HB | | apply HN].
  apply HL. induction es as [|e es IHes]; constructor; [apply IH | exact IHes].
Qed.

Lemma eval_expr_EList g es :
  eval_expr g (EList es) = (eval_items g es ≫= fun vs => Ok (VList vs)).
Proof. reflexivity. Qed.

Lemma eval_items_cons g e es :
  eval_items g (e :: es) =
  (eval_expr g e ≫= fun v => eval_items g es ≫= fun vs => Ok (v :: vs)).
Proof. reflexivity. Qed.

(** A literal right-hand side denotes the same object in every namespace,
    and its evaluation never raises. *)
Lemma eval_literal e :
  literal e = true ->
  exists v, forall g, eval_expr g e = Ok v.
Proof.
  induction e as [s|z|b|es IH|x] using expr_Forall_ind; intros Hlit;
    simpl in Hlit; try discriminate;
    try (eexists; intros g; reflexivity).
  assert (exists vs, forall g, eval_items g es = Ok vs) as [vs Hvs].
  { induction IH as [|e es He _ IHes]; [exists []; reflexivity|].
    simpl in Hlit. apply andb_prop in Hlit as [H1 H2].
    destruct (He H1) as [v Hv]. destruct (IHes H2) as [vs Hvs].
    exists (v :: vs). intros g.
    rewrite eval_items_cons, Hv, bind_Ok, Hvs. reflexivity. }
  exists (VList vs). intros g.
  rewrite eval_expr_EList, Hvs. reflexivity.
Qed.

(** ** Running a module body *)

Lemma exec_cons s p g :
  exec (s :: p) g = (exec_stmt g s ≫= exec p).
Proof. reflexivity. Qed.

Lemma exec_app p q g :
  exec (p ++ q) g = (exec p g ≫= exec q).
Proof.
  revert g. induction p as [|s p IH]; intros g; [reflexivity|].
  rewrite <- app_comm_cons, !exec_cons.
  destruct (exec_stmt g s) as [g1|err]; [|reflexivity].
  rewrite !bind_Ok. apply IH.
Qed.

Lemma exec_stmt_Ok_inv g g' x e :
  exec_stmt g (Assign x e) = Ok g' ->
  exists v, eval_expr g e = Ok v /\ g' = <[x := v]> g.
Proof.
  unfold exec_stmt. intros H.
  apply bind_Ok_inv in H as (v & Hv & Hg). exists v. split; congruence.
Qed.

Lemma exec_cons_Ok_inv x e p g g' :
  exec (Assign x e :: p) g = Ok g' ->
  exists v, eval_expr g e = Ok v /\ exec p (<[x := v]> g) = Ok g'.
Proof.
  rewrite exec_cons. intros H.
  apply bind_Ok_inv in H as (g1 & H1 & H2).
  apply exec_stmt_Ok_inv in H1 as (v & Hv & ->). eauto.
Qed.

(** Names the body does not assign keep whatever the namespace held. *)
Lemma exec_lookup_other p g g' k :
  exec p g = Ok g' -> k ∉ targets p -> g' !! k = g !! k.
Proof.
  revert g. induction p as [|[x e] p IH]; intros g H Hk.
  - simpl in H. congruence.
  - apply exec_cons_Ok_inv in H as (v & _ & H).
    simpl in Hk. apply not_elem_of_cons in Hk as [Hne Hk].
    rewrite (IH _ H Hk). apply lookup_insert_ne. congruence.
Qed.

(** The names bound after the body has run are the ones bound before
    together with the assigned ones. *)
Lemma exec_dom p g g' :
  exec p g = Ok g' -> dom g' = list_to_set (targets p) ∪ dom g.
Proof.
  revert g. induction p as [|[x e] p IH]; intros g H.
  - simpl in H. injection H as <-. set_solver.
  - apply exec_cons_Ok_inv in H as (v & _ & H).
    rewrite (IH _ H), dom_insert_L. simpl. set_solver.
Qed.

(** A body of literal assignments runs to completion from any namespace. *)
Lemma exec_literal_total p g :
  literal_module p = true -> exists g', exec p g = Ok g'.
Proof.
  revert g. induction p as [|[x e] p IH]; intros g Hlit.
  - exists g. reflexivity.
  - simpl in Hlit. apply andb_prop in Hlit as [He Hp].
    destruct (eval_literal e He) as [v Hv].
    destruct (IH (<[x := v]> g) Hp) as [g' Hg'].
    exists g'. rewrite exec_cons. unfold exec_stmt.
    rewrite Hv, !bind_Ok. exact Hg'.
Qed.

(** What a body of literal assignments binds does not depend on the
    namespace it starts from. *)
Lemma exec_literal_indep p :
  literal_module p = true ->
  forall g1 g2 r1 r2,
    exec p g1 = Ok r1 -> exec p g2 = Ok r2 ->
    forall k, k ∈ targets p \/ g1 !! k = g2 !! k -> r1 !! k = r2 !! k.
Proof.
  induction p as [|[x e] p IH]; intros Hlit g1 g2 r1 r2 H1 H2 k Hk.
  - simpl in H1, H2. injection H1 as <-. injection H2 as <-.
    destruct Hk as [Hk|Hk]; [|exact Hk]. simpl in Hk. inversion Hk.
  - simpl in Hlit. apply andb_prop in Hlit as [He Hp].
    destruct (eval_literal e He) as [v Hv].
    apply exec_cons_Ok_inv in H1 as (v1 & Hv1 & H1).
    apply exec_cons_Ok_inv in H2 as (v2 & Hv2 & H2).
    rewrite Hv in Hv1, Hv2. injection Hv1 as <-. injection Hv2 as <-.
    apply (IH Hp _ _ _ _ H1 H2).
    destruct (decide (k ∈ targets p)) as [Hin|Hnin]; [left; exact Hin|].
    right. destruct (decide (x = k)) as [->|Hne].
    + rewrite !lookup_insert_eq. reflexivity.
    + rewrite !lookup_insert_ne by exact Hne.
      destruct Hk as [Hk|Hk]; [|exact Hk].
      simpl in Hk. apply elem_of_cons in Hk as [Hk|Hk]; congruence.
Qed.

(** When no name is assigned twice, the object of every assignment is the
    one its target holds at the end. *)
Lemma exec_binding_survives p g g' x e :
  NoDup (targets p) -> literal_module p = true ->
  exec p g = Ok g' -> Assign x e ∈ p ->
  exists v, eval_expr ∅ e = Ok v /\ g' !! x = Some v.
Proof.
  revert g. induction p as [|[y e0] p IH]; intros g Hnd Hlit H Hin.
  - inversion Hin.
  - simpl in Hnd. apply NoDup_cons in Hnd as [Hy Hnd].
    simpl in Hlit. apply andb_prop in Hlit as [He Hp].
    apply exec_cons_Ok_inv in H as (v & Hv & H).
    apply elem_of_cons in Hin as [Heq|Hin].
    + injection Heq as -> ->.
      destruct (eval_literal e0 He) as [v' Hv'].
      exists v. split.
      * rewrite Hv' in Hv. rewrite Hv'. exact Hv.
      * rewrite (exec_lookup_other _ _ _ _ H Hy). apply lookup_insert_eq.
    + exact (IH _ Hnd Hp H Hin).
Qed.

(** When the body is literal, whatever the loaded module holds under a
    name was put there by one of its assignments. *)
Lemma exec_lookup_inv p g g' k v :
  literal_module p = true ->
  exec p g = Ok g' -> g' !! k = Some v ->
  g !! k = Some v \/ exists e, Assign k e ∈ p /\ eval_expr ∅ e = Ok v.
Proof.
  revert g. induction p as [|[x e] p IH]; intros g Hlit H Hk.
  - simpl in H. injection H as <-. left. exact Hk.
  - simpl in Hlit. apply andb_prop in Hlit as [He Hp].
    apply exec_cons_Ok_inv in H as (v0 & Hv0 & H).
    destruct (IH _ Hp H Hk) as [Hg|(e' & Hin & He')].
    + destruct (decide (x = k)) as [->|Hne].
      * rewrite lookup_insert_eq in Hg. injection Hg as ->.
        right. exists e. split; [left|].
        destruct (eval_literal e He) as [v' Hv'].
        rewrite Hv' in Hv0. rewrite Hv'. exact Hv0.
      * rewrite lookup_insert_ne in Hg by exact Hne. left. exact Hg.
    + right. exists e'. split; [right; exact Hin | exact He'].
Qed.

(** The evaluator on bodies unlike the two modules: a reference to an
    unbound name raises, and a second assignment to a name replaces the
    first. *)
Example unbound_name_raises :
  run [Assign "html_title" (EName "project_title")]
  = Raise (NameError "project_title").
Proof. reflexivity. Qed.

Example rebinding_overwrites :
  binding [Assign "html_static_path" (EList [EStr "./pencil/static"]);
           Assign "html_static_path" (EList [EStr "_static"])]
          "html_static_path"
  = Ok (Some (VList [VStr "_static"])).
Proof. reflexivity. Qed.

Example bool_is_not_int_in_schema :
  conforms "autosectionlabel_maxdepth" (VBool true) = false.
Proof. reflexivity. Qed.

(** ** The two modules *)

Lemma docs_literal : literal_module docs_conf = true.
Proof. reflexivity. Qed.

Lemma readthedocs_literal : literal_module readthedocs_conf = true.
Proof. reflexivity. Qed.

Lemma docs_targets_NoDup : NoDup (targets docs_conf).
Proof. apply (bool_decide_unpack _). vm_compute. exact I. Qed.

Lemma readthedocs_targets_NoDup : NoDup (targets readthedocs_conf).
Proof. apply (bool_decide_unpack _). vm_compute. exact I. Qed.

(** [docs/conf.py] is [readthedocs/conf.py] followed by one more
    assignment. *)
Lemma docs_split : docs_conf = (readthedocs_conf ++ [css_stmt])%list.
Proof. reflexivity. Qed.

Lemma css_not_in_readthedocs : "html_css_files" ∉ targets readthedocs_conf.
Proof. apply (bool_decide_unpack _). vm_compute. exact I. Qed.

Lemma docs_extends_readthedocs :
  exists gr,
    run readthedocs_conf = Ok gr /\
    run docs_conf = Ok (<["html_css_files" := VList [VStr "visplot.css"]]> gr) /\
    gr !! "html_css_files" = None.
Proof.
  destruct (exec_literal_total readthedocs_conf ∅ readthedocs_literal)
    as [gr Hgr].
  exists gr. split; [exact Hgr|]. split.
  - unfold run. rewrite docs_split, exec_app, Hgr. reflexivity.
  - rewrite (exec_lookup_other _ _ _ _ Hgr css_not_in_readthedocs).
    apply lookup_empty.
Qed.

Lemma binding_lookup p k g o :
  run p = Ok g -> binding p k = Ok o -> g !! k = o.
Proof. unfold binding. intros ->. rewrite bind_Ok. congruence. Qed.

Lemma literal_loads p : literal_module p = true -> loads p.
Proof.
  intros Hlit. destruct (exec_literal_total p ∅ Hlit) as [g Hg].
  exists g. split; [exact Hg|].
  rewrite (exec_dom _ _ _ Hg), dom_empty_L. set_solver.
Qed.

Lemma literal_bound_once p :
  literal_module p = true -> NoDup (targets p) -> bound_once p.
Proof.
  intros Hlit Hnd. split; [exact Hnd|].
  destruct (literal_loads p Hlit) as (g & Hg & Hdom).
  exists g. split; [exact Hg|]. split.
  - intros k. rewrite Hdom. apply elem_of_list_to_set.
  - intros x e Hin. exact (exec_binding_survives _ _ _ _ _ Hnd Hlit Hg Hin).
Qed.

Lemma literal_schema_conformant p :
  literal_module p = true -> forallb stmt_conforms p = true ->
  schema_conformant p.
Proof.
  intros Hlit Hall. destruct (exec_literal_total p ∅ Hlit) as [g Hg].
  exists g. split; [exact Hg|]. intros k v Hk.
  destruct (exec_lookup_inv _ _ _ _ _ Hlit Hg Hk) as [H0|(e & Hin & He)].
  - rewrite lookup_empty in H0. discriminate.
  - rewrite forallb_forall in Hall.
    apply list_elem_of_In in Hin. specialize (Hall _ Hin).
    simpl in Hall. rewrite He in Hall. exact Hall.
Qed.

Lemma literal_deterministic p : literal_module p = true -> deterministic p.
Proof.
  intros Hlit. split; [exact Hlit|]. intros g1 g2.
  destruct (exec_literal_total p g1 Hlit) as [r1 H1].
  destruct (exec_literal_total p g2 Hlit) as [r2 H2].
  exists r1, r2. repeat split; try assumption.
  - intros k Hk. apply (exec_literal_indep p Hlit _ _ _ _ H1 H2). left. exact Hk.
  - intros <-. congruence.
Qed.

(** ** Properties of the configuration *)

(** C1, as stated, fails: [docs/conf.py] binds [html_css_files] and
    [readthedocs/conf.py] does not, so the two loaded modules do not bind
    the same set of names. *)
Lemma same_names_fails :
  binding docs_conf "html_css_files" = Ok (Some (VList [VStr "visplot.css"])) /\
  binding readthedocs_conf "html_css_files" = Ok None /\
  ~ (exists gd gr,
       run docs_conf = Ok gd /\ run readthedocs_conf = Ok gr /\
       dom gd = dom gr /\ agree gd gr).
Proof.
  split; [reflexivity|]. split; [reflexivity|].
  intros (gd & gr & Hd & Hr & Hdom & _).
  pose proof (binding_lookup _ "html_css_files" _ _ Hd eq_refl) as H1.
  pose proof (binding_lookup _ "html_css_files" _ _ Hr eq_refl) as H2.
  apply (not_elem_of_dom gr "html_css_files"); [exact H2|].
  rewrite <- Hdom. apply elem_of_dom. rewrite H1. eauto.
Qed.

(** C1 (amended): the two modules are near-identical.  Apart from
    [html_css_files], which only [docs/conf.py] binds, they bind the same
    set of names, and every name bound by both is bound to the same value
    in both. *)
Theorem near_identical :
  exists gd gr,
    run docs_conf = Ok gd /\ run readthedocs_conf = Ok gr /\
    dom gd = dom gr ∪ {["html_css_files"]} /\
    ("html_css_files" ∉ dom gr) /\
    agree gd gr.
Proof.
  destruct docs_extends_readthedocs as (gr & Hr & Hd & Hcss).
  eexists _, gr. split; [exact Hd|]. split; [exact Hr|].
  split; [|split].
  - rewrite dom_insert_L. set_solver.
  - apply not_elem_of_dom. exact Hcss.
  - intros k v1 v2 H1 H2.
    destruct (decide ("html_css_files" = k)) as [<-|Hne]; [congruence|].
    rewrite lookup_insert_ne in H1 by exact Hne. congruence.
Qed.

Lemma near_identical_witness :
  exists v1 v2,
    binding docs_conf "project" = Ok (Some v1) /\
    binding readthedocs_conf "project" = Ok (Some v2) /\
    v1 = v2.
Proof.
  destruct near_identical as (gd & gr & Hd & Hr & _ & _ & Hagree).
  exists (VStr "Visplot"), (VStr "Visplot").
  split; [reflexivity|]. split; [reflexivity|].
  apply (Hagree "project").
  - exact (binding_lookup _ _ _ _ Hd eq_refl).
  - exact (binding_lookup _ _ _ _ Hr eq_refl).
Defined.

(** C2: both modules bind [extensions] to the same ordered list of exactly
    eight identifiers: autosectionlabel, autodoc, autosummary, doctest,
    todo, mathjax, ifconfig, viewcode, each under [sphinx.ext.]. *)
Theorem extensions_value :
  let exts := VList [ VStr "sphinx.ext.autosectionlabel";
                      VStr "sphinx.ext.autodoc";
                      VStr "sphinx.ext.autosummary";
                      VStr "sphinx.ext.doctest";
                      VStr "sphinx.ext.todo";
                      VStr "sphinx.ext.mathjax";
                      VStr "sphinx.ext.ifconfig";
                      VStr "sphinx.ext.viewcode" ] in
  binding docs_conf "extensions" = Ok (Some exts) /\
  binding readthedocs_conf "extensions" = Ok (Some exts).
Proof. split; reflexivity. Qed.

(** C3: both modules declare the project metadata as three strings with
    the same values: project 'Visplot', copyright '2026, irl, ega' and
    author 'irl, ega'. *)
Theorem project_metadata :
  binding docs_conf "project" = Ok (Some (VStr "Visplot")) /\
  binding docs_conf "copyright" = Ok (Some (VStr "2026, irl, ega")) /\
  binding docs_conf "author" = Ok (Some (VStr "irl, ega")) /\
  binding readthedocs_conf "project" = Ok (Some (VStr "Visplot")) /\
  binding readthedocs_conf "copyright" = Ok (Some (VStr "2026, irl, ega")) /\
  binding readthedocs_conf "author" = Ok (Some (VStr "irl, ega")).
Proof. repeat split; reflexivity. Qed.

(** C4: in each module every name is assigned exactly once, so every name
    the loaded module binds holds the value of its one assignment. *)
Theorem names_bound_once :
  bound_once docs_conf /\ bound_once readthedocs_conf.
Proof.
  split.
  - exact (literal_bound_once _ docs_literal docs_targets_NoDup).
  - exact (literal_bound_once _ readthedocs_literal readthedocs_targets_NoDup).
Qed.

Lemma names_bound_once_witness :
  exists g v,
    run docs_conf = Ok g /\
    "html_static_path" ∈ dom g /\
    eval_expr ∅ (EList [EStr "_static"]) = Ok v /\
    g !! "html_static_path" = Some v.
Proof.
  destruct names_bound_once as [(_ & g & Hg & Hdom & Hval) _].
  destruct (Hval "html_static_path" (EList [EStr "_static"])) as (v & Hv & Hk).
  { apply list_elem_of_In. unfold docs_conf. simpl. do 12 right. left.
    reflexivity. }
  exists g, v. split; [exact Hg|]. split; [|split; assumption].
  apply Hdom. apply (bool_decide_unpack _). vm_compute. exact I.
Defined.

(** C5: every name bound by either module conforms to the builder's
    schema: project, copyright, author, html_theme, html_logo, html_title
    and html_short_title are strings; extensions, templates_path,
    exclude_patterns, html_static_path and html_css_files are lists of
    strings; autosectionlabel_prefix_document is a boolean and
    autosectionlabel_maxdepth an integer. *)
Theorem bindings_conform :
  schema_conformant docs_conf /\ schema_conformant readthedocs_conf.
Proof.
  split; apply literal_schema_conformant; reflexivity.
Qed.

Lemma bindings_conform_witness :
  conforms "autosectionlabel_maxdepth" (VInt 4) = true.
Proof.
  destruct bindings_conform as [(g & Hg & Hall) _].
  apply Hall. exact (binding_lookup _ _ _ _ Hg eq_refl).
Defined.

(** C6: both modules load: running each body, a sequence of assignments of
    literals, reaches no exception and yields the final namespace. *)
Theorem conf_files_load :
  loads docs_conf /\ loads readthedocs_conf.
Proof.
  split; apply literal_loads; reflexivity.
Qed.

(** C7: each module only binds literals to names, so running it is
    deterministic: from any two initial namespaces the body runs to
    completion and binds the same values, and from equal initial
    namespaces it yields equal namespaces. *)
Theorem evaluation_deterministic :
  deterministic docs_conf /\ deterministic readthedocs_conf.
Proof.
  split; apply literal_deterministic; reflexivity.
Qed.

Lemma evaluation_deterministic_witness :
  exists r1 r2,
    exec docs_conf ∅ = Ok r1 /\
    exec docs_conf {["tags" := VList []]} = Ok r2 /\
    r1 !! "html_theme" = r2 !! "html_theme".
Proof.
  destruct evaluation_deterministic as [[_ Hdet] _].
  destruct (Hdet ∅ {["tags" := VList []]}) as (r1 & r2 & H1 & H2 & Hsame & _).
  exists r1, r2. split; [exact H1|]. split; [exact H2|].
  apply Hsame. apply (bool_decide_unpack _). vm_compute. exact I.
Defined.

(** C8: the names bound by [readthedocs/conf.py] are exactly those bound
    by [docs/conf.py] minus [html_css_files]; [docs/conf.py] binds
    [html_css_files] to the list holding "visplot.css",
    [readthedocs/conf.py] does not bind it, and every name bound by both
    has equal values. *)
Theorem readthedocs_is_docs_minus_css :
  exists gd gr,
    run docs_conf = Ok gd /\ run readthedocs_conf = Ok gr /\
    dom gr = dom gd ∖ {["html_css_files"]} /\
    gd !! "html_css_files" = Some (VList [VStr "visplot.css"]) /\
    gr !! "html_css_files" = None /\
    agree gd gr.
Proof.
  destruct docs_extends_readthedocs as (gr & Hr & Hd & Hcss).
  eexists _, gr. split; [exact Hd|]. split; [exact Hr|].
  split; [|split; [|split]].
  - apply not_elem_of_dom in Hcss. rewrite dom_insert_L. set_solver.
  - apply lookup_insert_eq.
  - exact Hcss.
  - intros k v1 v2 H1 H2.
    destruct (decide ("html_css_files" = k)) as [<-|Hne]; [congruence|].
    rewrite lookup_insert_ne in H1 by exact Hne. congruence.
Qed.

Lemma readthedocs_is_docs_minus_css_witness :
  exists v1 v2,
    binding docs_conf "html_static_path" = Ok (Some v1) /\
    binding readthedocs_conf "html_static_path" = Ok (Some v2) /\
    v1 = v2.
Proof.
  destruct readthedocs_is_docs_minus_css
    as (gd & gr & Hd & Hr & _ & _ & _ & Hagree).
  exists (VList [VStr "_static"]), (VList [VStr "_static"]).
  split; [reflexivity|]. split; [reflexivity|].
  apply (Hagree "html_static_path").
  - exact (binding_lookup _ _ _ _ Hd eq_refl).
  - exact (binding_lookup _ _ _ _ Hr eq_refl).
Defined.

(** C9: in both modules the extensions list is well-formed: eight pairwise
    distinct strings, each starting with "sphinx.ext.". *)
Theorem extensions_well_formed :
  well_formed_extensions docs_conf 8 /\
  well_formed_extensions readthedocs_conf 8.
Proof.
  split;
    (exists [ "sphinx.ext.autosectionlabel"; "sphinx.ext.autodoc";
              "sphinx.ext.autosummary"; "sphinx.ext.doctest";
              "sphinx.ext.todo"; "sphinx.ext.mathjax";
              "sphinx.ext.ifconfig"; "sphinx.ext.viewcode" ];
     split; [reflexivity|]; split; [reflexivity|]; split;
     [ apply (bool_decide_unpack _); vm_compute; exact I
     | repeat constructor ]).
Qed.

(** C10: both modules enable document-prefixed section labels with a fixed
    depth: autosectionlabel_prefix_document is True and
    autosectionlabel_maxdepth is the integer 4 in each. *)
Theorem autosectionlabel_settings :
  binding docs_conf "autosectionlabel_prefix_document" = Ok (Some (VBool true)) /\
  binding docs_conf "autosectionlabel_maxdepth" = Ok (Some (VInt 4)) /\
  binding readthedocs_conf "autosectionlabel_prefix_document"
    = Ok (Some (VBool true)) /\
  binding readthedocs_conf "autosectionlabel_maxdepth" = Ok (Some (VInt 4)).
Proof. repeat split; reflexivity. Qed.

(** ** Reordering, loading into a populated namespace, reloading *)

Lemma literal_module_Permutation p q :
  p ≡ₚ q -> literal_module p = literal_module q.
Proof.
  induction 1 as [|s p q _ IH|s1 s2 p|p q r _ IH1 _ IH2].
  - reflexivity.
  - simpl. rewrite IH. reflexivity.
  - simpl. destruct (literal_stmt s1), (literal_stmt s2); reflexivity.
  - congruence.
Qed.

Lemma targets_Permutation p q : p ≡ₚ q -> targets p ≡ₚ targets q.
Proof. intros H. unfold targets. apply Permutation_map. exact H. Qed.

Lemma exec_literal_cons x e p g :
  literal e = true ->
  exists v, (forall g', eval_expr g' e = Ok v) /\
            exec (Assign x e :: p) g = exec p (<[x := v]> g).
Proof.
  intros He. destruct (eval_literal e He) as [v Hv].
  exists v. split; [exact Hv|].
  rewrite exec_cons. unfold exec_stmt. rewrite Hv, !bind_Ok. reflexivity.
Qed.

(** Literal assignments to distinct names commute. *)
Lemma exec_Permutation p q :
  p ≡ₚ q -> literal_module p = true -> NoDup (targets p) ->
  forall g, exec p g = exec q g.
Proof.
  induction 1 as [|s p q _ IH|[x e1] [y e2] p|p q r Hpq IH1 _ IH2];
    intros Hlit Hnd g.
  - reflexivity.
  - simpl in Hlit. apply andb_prop in Hlit as [_ Hp].
    simpl in Hnd. apply NoDup_cons in Hnd as [_ Hnd].
    rewrite !exec_cons. destruct (exec_stmt g s) as [g1|err]; [|reflexivity].
    rewrite !bind_Ok. apply IH; assumption.
  - simpl in Hlit. apply andb_prop in Hlit as [H2 Hlit].
    apply andb_prop in Hlit as [H1 _].
    simpl in Hnd. apply NoDup_cons in Hnd as [Hne _].
    apply not_elem_of_cons in Hne as [Hne _].
    destruct (exec_literal_cons y e2 (Assign x e1 :: p) g H2) as (v2 & Hv2 & ->).
    destruct (exec_literal_cons x e1 p (<[y := v2]> g) H1) as (v1 & Hv1 & ->).
    destruct (exec_literal_cons x e1 (Assign y e2 :: p) g H1) as (v1' & Hv1' & ->).
    destruct (exec_literal_cons y e2 p (<[x := v1']> g) H2) as (v2' & Hv2' & ->).
    specialize (Hv1 ∅). rewrite Hv1' in Hv1. injection Hv1 as ->.
    specialize (Hv2 ∅). rewrite Hv2' in Hv2. injection Hv2 as ->.
    rewrite insert_insert_ne by congruence. reflexivity.
  - rewrite (IH1 Hlit Hnd g). apply IH2.
    + rewrite <- (literal_module_Permutation _ _ Hpq). exact Hlit.
    + rewrite <- (targets_Permutation _ _ Hpq). exact Hnd.
Qed.

(** Run from a populated namespace, a literal body overrides the names it
    assigns and keeps every other binding. *)
Lemma exec_literal_frame p gp g :
  literal_module p = true -> run p = Ok gp -> exec p g = Ok (gp ∪ g).
Proof.
  intros Hlit Hp. destruct (exec_literal_total p g Hlit) as [r Hr].
  rewrite Hr. f_equal. apply map_eq. intros k.
  destruct (decide (k ∈ targets p)) as [Hin|Hnin].
  - rewrite (exec_literal_indep p Hlit _ _ _ _ Hr Hp k (or_introl Hin)).
    assert (k ∈ dom gp) as Hdom.
    { rewrite (exec_dom _ _ _ Hp). apply elem_of_union_l.
      apply elem_of_list_to_set. exact Hin. }
    apply elem_of_dom in Hdom as [v Hv].
    rewrite Hv. symmetry. apply lookup_union_Some_l. exact Hv.
  - rewrite (exec_lookup_other _ _ _ _ Hr Hnin).
    symmetry. rewrite lookup_union_r; [reflexivity|].
    rewrite (exec_lookup_other _ _ _ _ Hp Hnin). apply lookup_empty.
Qed.

Lemma literal_bindings_forall (c : string -> value -> bool) p :
  literal_module p = true -> forallb (stmt_satisfies c) p = true ->
  exists g, run p = Ok g /\ forall k v, g !! k = Some v -> c k v = true.
Proof.
  intros Hlit Hall. destruct (exec_literal_total p ∅ Hlit) as [g Hg].
  exists g. split; [exact Hg|]. intros k v Hk.
  destruct (exec_lookup_inv _ _ _ _ _ Hlit Hg Hk) as [H0|(e & Hin & He)].
  - rewrite lookup_empty in H0. discriminate.
  - rewrite forallb_forall in Hall.
    apply list_elem_of_In in Hin. specialize (Hall _ Hin).
    simpl in Hall. rewrite He in Hall. exact Hall.
Qed.

Lemma conf_modules_inv p :
  p ∈ conf_modules -> p = docs_conf \/ p = readthedocs_conf.
Proof.
  intros H. apply list_elem_of_In in H. simpl in H.
  destruct H as [<-|[<-|[]]]; [left|right]; reflexivity.
Qed.

Lemma conf_modules_literal p : p ∈ conf_modules -> literal_module p = true.
Proof. intros H. destruct (conf_modules_inv p H) as [->| ->]; reflexivity. Qed.

Lemma conf_modules_NoDup p : p ∈ conf_modules -> NoDup (targets p).
Proof.
  intros H. destruct (conf_modules_inv p H) as [->| ->];
    [exact docs_targets_NoDup | exact readthedocs_targets_NoDup].
Qed.

Lemma union_absorb (m1 m2 : env) : m2 ⊆ m1 -> m1 ∪ m2 = m1.
Proof.
  intros Hsub. apply map_eq. intros k.
  destruct (m1 !! k) as [v|] eqn:Hk.
  - apply lookup_union_Some_l. exact Hk.
  - rewrite lookup_union_r by exact Hk.
    exact (lookup_weaken_None _ _ _ Hk Hsub).
Qed.

(** Bodies unlike the two modules: with a name assigned twice the order of
    the statements shows in the namespace, and the check on settings
    rejects an empty list and a repeated entry. *)
Example rebinding_order_matters :
  binding [Assign "html_theme" (EStr "alabaster");
           Assign "html_theme" (EStr "sphinx_rtd_theme")] "html_theme"
  <> binding [Assign "html_theme" (EStr "sphinx_rtd_theme");
              Assign "html_theme" (EStr "alabaster")] "html_theme".
Proof. intros H. vm_compute in H. discriminate. Qed.

Example empty_or_repeated_list_rejected :
  well_formed_setting (VList []) = false /\
  well_formed_setting (VList [VStr "_static"; VStr "_static"]) = false.
Proof. split; reflexivity. Qed.

(** ** Further properties of the two modules *)

(** X1: the assignments of either module can be put in any order: every
    reordering of the body loads, and to the same namespace. *)
Theorem reordering_keeps_namespace p q :
  p ∈ conf_modules -> q ≡ₚ p ->
  exists g, run p = Ok g /\ run q = Ok g.
Proof.
  intros Hp Hperm.
  destruct (literal_loads p (conf_modules_literal p Hp)) as (g & Hg & _).
  exists g. split; [exact Hg|].
  unfold run. rewrite <- Hg. unfold run. symmetry.
  apply exec_Permutation.
  - symmetry. exact Hperm.
  - exact (conf_modules_literal p Hp).
  - exact (conf_modules_NoDup p Hp).
Qed.

Lemma reordering_keeps_namespace_witness :
  exists g, run docs_conf = Ok g /\ run (reverse docs_conf) = Ok g.
Proof.
  apply (reordering_keeps_namespace docs_conf (reverse docs_conf)).
  - apply list_elem_of_In. simpl. left. reflexivity.
  - apply reverse_Permutation.
Defined.

(** X2: run in a namespace that already holds bindings, either module runs
    to completion and leaves its own bindings laid over the ones that were
    there: the names it assigns are overridden, every other name keeps its
    value. *)
Theorem load_into_populated_namespace p g0 :
  p ∈ conf_modules ->
  exists gp, run p = Ok gp /\ exec p g0 = Ok (gp ∪ g0).
Proof.
  intros Hp. pose proof (conf_modules_literal p Hp) as Hlit.
  destruct (literal_loads p Hlit) as (gp & Hgp & _).
  exists gp. split; [exact Hgp|]. exact (exec_literal_frame p gp g0 Hlit Hgp).
Qed.

Lemma load_into_populated_namespace_witness :
  exists gp,
    run readthedocs_conf = Ok gp /\
    exec readthedocs_conf {["project" := VStr "draft"; "tags" := VList []]}
    = Ok (gp ∪ {["project" := VStr "draft"; "tags" := VList []]}).
Proof.
  apply (load_into_populated_namespace readthedocs_conf).
  apply list_elem_of_In. simpl. right. left. reflexivity.
Defined.

(** X3: loading either module a second time, on top of the namespace its
    first load left, changes nothing. *)
Theorem reload_changes_nothing p :
  p ∈ conf_modules ->
  exists g, run p = Ok g /\ exec p g = Ok g.
Proof.
  intros Hp. pose proof (conf_modules_literal p Hp) as Hlit.
  destruct (literal_loads p Hlit) as (g & Hg & _).
  exists g. split; [exact Hg|].
  rewrite (exec_literal_frame p g g Hlit Hg).
  rewrite union_absorb by reflexivity. reflexivity.
Qed.

Lemma reload_changes_nothing_witness :
  exists g, run docs_conf = Ok g /\ exec docs_conf g = Ok g.
Proof.
  apply (reload_changes_nothing docs_conf).
  apply list_elem_of_In. simpl. left. reflexivity.
Defined.

(** X4: [docs/conf.py] loaded on top of the namespace of
    [readthedocs/conf.py] gives the namespace of [docs/conf.py], and
    [readthedocs/conf.py] loaded on top of the namespace of [docs/conf.py]
    leaves it as it is. *)
Theorem docs_layers_over_readthedocs :
  exists gd gr,
    run docs_conf = Ok gd /\ run readthedocs_conf = Ok gr /\
    exec docs_conf gr = Ok gd /\
    exec readthedocs_conf gd = Ok gd.
Proof.
  destruct docs_extends_readthedocs as (gr & Hr & Hd & Hcss).
  eexists _, gr. split; [exact Hd|]. split; [exact Hr|].
  pose proof (insert_subseteq gr "html_css_files"
                (VList [VStr "visplot.css"]) Hcss) as Hsub.
  split.
  - rewrite (exec_literal_frame _ _ gr docs_literal Hd).
    rewrite (union_absorb _ _ Hsub). reflexivity.
  - rewrite (exec_literal_frame _ _ _ readthedocs_literal Hr).
    rewrite (map_subseteq_union _ _ Hsub). reflexivity.
Qed.

(** X5: in either module the page title and the short title are the
    project name: [project], [html_title] and [html_short_title] hold one
    and the same string. *)
Theorem titles_match_project p :
  p ∈ conf_modules ->
  exists s,
    binding p "project" = Ok (Some (VStr s)) /\
    binding p "html_title" = Ok (Some (VStr s)) /\
    binding p "html_short_title" = Ok (Some (VStr s)).
Proof.
  intros Hp. exists "Visplot".
  destruct (conf_modules_inv p Hp) as [->| ->]; repeat split; reflexivity.
Qed.

Lemma titles_match_project_witness :
  exists s,
    binding readthedocs_conf "project" = Ok (Some (VStr s)) /\
    binding readthedocs_conf "html_title" = Ok (Some (VStr s)) /\
    binding readthedocs_conf "html_short_title" = Ok (Some (VStr s)).
Proof.
  apply (titles_match_project readthedocs_conf).
  apply list_elem_of_In. simpl. right. left. reflexivity.
Defined.

(** X6: no setting of either module is empty: every string bound is
    non-empty, and every list bound is a non-empty list of non-empty
    strings in which no string occurs twice. *)
Theorem settings_well_formed p :
  p ∈ conf_modules ->
  exists g, run p = Ok g /\
    forall k v, g !! k = Some v -> well_formed_setting v = true.
Proof.
  intros Hp.
  apply (literal_bindings_forall (fun _ v => well_formed_setting v)).
  - exact (conf_modules_literal p Hp).
  - destruct (conf_modules_inv p Hp) as [->| ->]; vm_compute; reflexivity.
Qed.

Lemma settings_well_formed_witness :
  well_formed_setting
    (VList [VStr "_build"; VStr "Thumbs.db"; VStr ".DS_Store"]) = true.
Proof.
  destruct (settings_well_formed docs_conf) as (g & Hg & Hall).
  { apply list_elem_of_In. simpl. left. reflexivity. }
  apply (Hall "exclude_patterns").
  exact (binding_lookup _ _ _ _ Hg eq_refl).
Defined.
